(** * Monty Hall notebook (discussion-exercise-2018-09-24.ipynb)

    A shallow embedding of the notebook's two code cells -- the stay
    evaluation and the switch evaluation with its row function
    [change_mind] -- together with the properties they satisfy.

    Doors are Python/numpy integers, modelled as [Z].  Python lists are
    [list Z]; the Series of booleans produced by [==] is a [list bool];
    the Series returned by [value_counts()] is a finite map from the
    values that occur to their number of occurrences.  Exceptions are
    explicit: every operation that can raise returns a [result].  The
    final quotients are numpy float64 values, modelled with the binary64
    instance of [SpecFloat]. *)

From Stdlib Require Import ZArith QArith Lia.
From Stdlib Require Import Floats.SpecFloat.
From stdpp Require Import base list gmap.

Local Open Scope Z_scope.

(** ** Exceptions and the error monad *)

Inductive exn : Set :=
| ValueError
| IndexError
| KeyError.

Inductive result (A : Type) : Type :=
| Ok (a : A)
| Raise (e : exn).

Arguments Ok {A} a.
Arguments Raise {A} e.

Definition bind {A B : Type} (c : result A) (k : A -> result B) : result B :=
  match c with
  | Ok a => k a
  | Raise e => Raise e
  end.

Notation "'do' x <- c ; k" := (bind c (fun x => k))
  (at level 10, x name, c at level 100, k at level 200,
   format "'[v' 'do'  x  <-  c ; '/' k ']'").

Fixpoint mapM {A B : Type} (f : A -> result B) (l : list A) : result (list B) :=
  match l with
  | [] => Ok []
  | a :: l' => do b <- f a; do bs <- mapM f l'; Ok (b :: bs)
  end.

(** ** Python lists *)

Module PyList.

(** [l.remove(x)]: drops the first element equal to [x]; [ValueError]
    when there is none. *)
Fixpoint remove (x : Z) (l : list Z) : result (list Z) :=
  match l with
  | [] => Raise ValueError
  | y :: l' =>
      if Z.eqb y x then Ok l'
      else do l'' <- remove x l'; Ok (y :: l'')
  end.

(** [l[i]] for a non-negative literal index; [IndexError] out of range. *)
Definition getitem (l : list Z) (i : nat) : result Z :=
  match l !! i with
  | Some v => Ok v
  | None => Raise IndexError
  end.

End PyList.

(** ** numpy float64 *)

Module Float64.

Definition prec : Z := 53.
Definition emax : Z := 1024.

(** Conversion of an integer to float64 (round to nearest even). *)
Definition of_Z (z : Z) : spec_float := binary_normalize prec emax z 0 false.

Definition div (x y : spec_float) : spec_float := SFdiv prec emax x y.
Definition sub (x y : spec_float) : spec_float := SFsub prec emax x y.

(** [a / b] on integers: numpy's true division. *)
Definition true_divide (a b : Z) : spec_float := div (of_Z a) (of_Z b).

(** The rational number a finite float64 stands for (0 for zeros,
    infinities and NaN). *)
Definition to_Q (f : spec_float) : Q :=
  match f with
  | S754_finite s m e =>
      ((if s then -1 else 1) * inject_Z (Z.pos m) * 2 ^ e)%Q
  | _ => 0%Q
  end.

Definition zero : spec_float := S754_zero false.
Definition one : spec_float := S754_finite false 4503599627370496 (-52).

End Float64.

(** ** pandas Series *)

Module Series.

(** [a == b] on two Series: elementwise, and [ValueError] unless both
    carry the same labels (here: the same length, both being indexed
    [0 .. len-1]). *)
Definition eq (a b : list Z) : result (list bool) :=
  if decide (length a = length b) then Ok (zip_with Z.eqb a b)
  else Raise ValueError.

(** [s.value_counts()]: the values that occur, each with its number of
    occurrences.  Only label lookup is performed on the outcome, so the
    display order of the entries is not part of the model. *)
Definition value_counts (s : list bool) : gmap bool nat :=
  foldr (fun b m => <[b := S (default 0%nat (m !! b))]> m) ∅ s.

(** [vc[k]]: label lookup; [KeyError] when the label is absent. *)
Definition getitem (vc : gmap bool nat) (k : bool) : result nat :=
  match vc !! k with
  | Some n => Ok n
  | None => Raise KeyError
  end.

End Series.

(** ** The notebook *)

(** A row of [df_picked] once the [car_under] column has been put next
    to [picked]: [row[0]] is the pick, [row[1]] the door of the car. *)
Definition row : Type := (Z * Z)%type.

(** The argument of the second [options.remove(...)]: the door the
    presenter opens.  Python evaluates [options[0] == car_under] first and
    then only the selected branch. *)
Definition revealed_goat (options : list Z) (car_under : Z) : result Z :=
  do o0 <- PyList.getitem options 0;
  if Z.eqb o0 car_under then PyList.getitem options 1
  else PyList.getitem options 0.

Definition change_mind (r : row) : result Z :=
  let picked := r.1 in
  let car_under := r.2 in
  let options := [0; 1; 2] in
  do options <- PyList.remove picked options;
  do goat <- revealed_goat options car_under;
  do options <- PyList.remove goat options;
  PyList.getitem options 0.

(** The door opened by the presenter in [change_mind r]: the value that
    the second removal receives. *)
Definition host_reveals (r : row) : result Z :=
  do options <- PyList.remove r.1 [0; 1; 2];
  revealed_goat options r.2.

(** [(a == b).value_counts()[True]] *)
Definition num_times_we_got_the_car (a b : list Z) : result nat :=
  do hits <- Series.eq a b;
  Series.getitem (Series.value_counts hits) true.

Definition approximate_P_staying
    (num_trials : Z) (car_under picked : list Z) : result spec_float :=
  do n <- num_times_we_got_the_car car_under picked;
  Ok (Float64.true_divide (Z.of_nat n) num_trials).

(** [df_picked.apply(change_mind, axis=1)], the rows being the pairs of
    the two columns. *)
Definition df_changed_mind (car_under picked : list Z) : result (list Z) :=
  mapM change_mind (zip picked car_under).

Definition approximate_P_switching
    (num_trials : Z) (car_under picked : list Z) : result spec_float :=
  do changed <- df_changed_mind car_under picked;
  do n <- num_times_we_got_the_car car_under changed;
  Ok (Float64.true_divide (Z.of_nat n) num_trials).

(** Both cells, in the order the notebook runs them. *)
Definition notebook
    (num_trials : Z) (car_under picked : list Z)
  : result (spec_float * spec_float) :=
  do p_stay <- approximate_P_staying num_trials car_under picked;
  do p_switch <- approximate_P_switching num_trials car_under picked;
  Ok (p_stay, p_switch).

(** ** Vocabulary of the specification *)

(** A door number. *)
Definition door (d : Z) : Prop := 0 <= d <= 2.

(** The trial data the generator produces: two sequences of
    [num_trials] doors. *)
Definition trials (num_trials : Z) (car_under picked : list Z) : Prop :=
  Z.of_nat (length car_under) = num_trials /\
  Z.of_nat (length picked) = num_trials /\
  Forall door car_under /\ Forall door picked.

(** Number of positions at which two sequences agree. *)
Definition matches (a b : list Z) : nat :=
  length (filter (fun p : Z * Z => p.1 = p.2) (zip a b)).

(** Number of occurrences of a value in a boolean Series. *)
Definition occurrences (b : bool) (s : list bool) : nat :=
  length (filter (fun x => x = b) s).

(** Closed form of [change_mind] for a pick in {0,1,2}: [low] and [high]
    are the two doors left once the pick is removed. *)
Definition low (picked : Z) : Z := if Z.eqb picked 0 then 1 else 0.
Definition high (picked : Z) : Z := if Z.eqb picked 2 then 1 else 2.
Definition switched (picked car_under : Z) : Z :=
  if Z.eqb (low picked) car_under then low picked else high picked.

(** [p_stay == 1 - p_switch], the comparison Python would make on the
    two reported values. *)
Definition complementary (p_stay p_switch : spec_float) : bool :=
  SFeqb p_stay (Float64.sub (Float64.of_Z 1) p_switch).

Example change_mind_00 : change_mind (0, 0) = Ok 2.
Proof. reflexivity. Qed.
Example change_mind_01 : change_mind (0, 1) = Ok 1.
Proof. reflexivity. Qed.
Example change_mind_12 : change_mind (1, 2) = Ok 2.
Proof. reflexivity. Qed.
Example change_mind_bad_pick : change_mind (3, 0) = Raise ValueError.
Proof. reflexivity. Qed.
Example stay_3 :
  approximate_P_staying 3 [0; 1; 2] [0; 0; 0] = Ok (Float64.true_divide 1 3).
Proof. vm_compute. reflexivity. Qed.
Example switch_3 :
  approximate_P_switching 3 [0; 1; 2] [0; 0; 0]
  = Ok (Float64.true_divide 2 3).
Proof. vm_compute. reflexivity. Qed.
Example stay_1 : approximate_P_staying 1 [0] [1] = Raise KeyError.
Proof. vm_compute. reflexivity. Qed.
Example quotient_0_1 : Float64.true_divide 0 1 = Float64.zero.
Proof. vm_compute. reflexivity. Qed.
Example quotient_1_1 : Float64.true_divide 1 1 = Float64.one.
Proof. vm_compute. reflexivity. Qed.

(** ** The switch resolver *)

Lemma door_cases d : door d -> d = 0 \/ d = 1 \/ d = 2.
Proof. unfold door. lia. Qed.

(** Splits every [door d] hypothesis into the three doors. *)
Ltac doors :=
  repeat match goal with
         | H : door ?d |- _ =>
             apply door_cases in H; destruct H as [-> | [-> | ->]]
         end.

Lemma door_low p : door p -> door (low p) /\ low p <> p.
Proof. intros Hp. doors; unfold door; cbn; lia. Qed.

Lemma door_high p : door p -> door (high p) /\ high p <> p /\ low p < high p.
Proof. intros Hp. doors; unfold door; cbn; lia. Qed.

(** After the pick is removed the candidates are [low] and [high], in
    that order. *)
Lemma remove_picked p :
  door p -> PyList.remove p [0; 1; 2] = Ok [low p; high p].
Proof. intros Hp. doors; reflexivity. Qed.

(** Whatever [car_under] holds, a pick in {0,1,2} makes [change_mind]
    return, and the value is the closed form [switched]. *)
Lemma change_mind_switched p c :
  door p -> change_mind (p, c) = Ok (switched p c).
Proof.
  intros Hp. unfold change_mind, switched. cbn [fst snd].
  rewrite (remove_picked p Hp). cbn [bind].
  unfold revealed_goat. cbn [PyList.getitem lookup list_lookup bind].
  destruct (door_low p Hp) as [_ Hl], (door_high p Hp) as (_ & _ & Hlt).
  destruct (Z.eqb_spec (low p) c) as [Heq | Hne]; cbn [bind PyList.remove].
  - destruct (Z.eqb_spec (low p) (high p)); [lia |].
    rewrite Z.eqb_refl. reflexivity.
  - rewrite Z.eqb_refl. reflexivity.
Qed.

Lemma host_reveals_closed p c :
  door p ->
  host_reveals (p, c) = Ok (if Z.eqb (low p) c then high p else low p).
Proof.
  intros Hp. unfold host_reveals. cbn [fst snd].
  rewrite (remove_picked p Hp). cbn [bind].
  unfold revealed_goat. cbn [PyList.getitem lookup list_lookup bind].
  destruct (Z.eqb (low p) c); reflexivity.
Qed.

(** The second removal of [change_mind] takes out the door that
    [host_reveals] names. *)
Lemma change_mind_removes_goat (r : row) :
  change_mind r =
  (do options <- PyList.remove r.1 [0; 1; 2];
   do goat <- host_reveals r;
   do options' <- PyList.remove goat options;
   PyList.getitem options' 0).
Proof.
  unfold change_mind, host_reveals.
  destruct (PyList.remove r.1 [0; 1; 2]); reflexivity.
Qed.

Lemma switched_car p c : door p -> door c -> c <> p -> switched p c = c.
Proof. intros Hp Hc Hne. doors; try reflexivity; congruence. Qed.

Lemma switched_not_picked p c : door p -> switched p c <> p.
Proof.
  intros Hp. unfold switched.
  destruct (door_low p Hp) as [_ Hl], (door_high p Hp) as (_ & Hh & _).
  destruct (Z.eqb (low p) c); assumption.
Qed.

Lemma switched_door p c : door p -> door (switched p c).
Proof.
  intros Hp. unfold switched.
  destruct (door_low p Hp) as [Hl _], (door_high p Hp) as (Hh & _).
  destruct (Z.eqb (low p) c); assumption.
Qed.

(** C1: for every pick and car door in {0,1,2}, [change_mind] returns the
    car's door whenever the car is not behind the picked door. *)
Theorem change_mind_finds_car (picked car_under : Z) :
  door picked -> door car_under -> car_under <> picked ->
  change_mind (picked, car_under) = Ok car_under.
Proof.
  intros Hp Hc Hne.
  rewrite (change_mind_switched _ _ Hp).
  f_equal. apply switched_car; assumption.
Qed.

Lemma change_mind_finds_car_witness :
  (door 0 /\ door 2 /\ 2 <> 0) /\ change_mind (0, 2) = Ok 2.
Proof.
  assert (H0 : door 0) by (unfold door; lia).
  assert (H2 : door 2) by (unfold door; lia).
  assert (Hne : 2 <> 0) by lia.
  split; [auto | exact (change_mind_finds_car 0 2 H0 H2 Hne)].
Defined.

(** C2: for every pick and car door in {0,1,2}, the door [change_mind]
    returns, the pick and the door the presenter opens (the value handed to
    the second removal) are pairwise distinct and are, together, exactly
    the doors 0, 1 and 2. *)
Theorem trial_doors_partition (picked car_under : Z) :
  door picked -> door car_under ->
  exists goat switched_pick,
    host_reveals (picked, car_under) = Ok goat /\
    change_mind (picked, car_under) = Ok switched_pick /\
    switched_pick <> picked /\
    switched_pick <> goat /\
    picked <> goat /\
    [picked; goat; switched_pick] ≡ₚ [0; 1; 2].
Proof.
  intros Hp Hc.
  exists (if Z.eqb (low picked) car_under then high picked else low picked).
  exists (switched picked car_under).
  rewrite (host_reveals_closed _ _ Hp), (change_mind_switched _ _ Hp).
  do 2 (split; [reflexivity |]).
  doors; cbn; (repeat split; [lia .. |]).
  all: first
    [ reflexivity
    | apply perm_swap
    | apply perm_skip, perm_swap
    | etrans; [apply perm_swap |]; apply perm_skip, perm_swap
    | etrans; [apply perm_skip, perm_swap |]; apply perm_swap
    | etrans; [apply perm_swap |];
      etrans; [apply perm_skip, perm_swap |]; apply perm_swap ].
Qed.

Lemma trial_doors_partition_witness :
  (door 1 /\ door 1) /\
  exists goat switched_pick,
    host_reveals (1, 1) = Ok goat /\
    change_mind (1, 1) = Ok switched_pick /\
    switched_pick <> 1 /\
    switched_pick <> goat /\
    1 <> goat /\
    [1; goat; switched_pick] ≡ₚ [0; 1; 2].
Proof.
  assert (H1 : door 1) by (unfold door; lia).
  split; [auto | exact (trial_doors_partition 1 1 H1 H1)].
Defined.

(** C3: on {0,1,2} x {0,1,2} [change_mind] is total: the first removal,
    the choice of the door to open, the second removal and the final
    indexing all succeed, and the door returned is in {0,1,2}. *)
Theorem change_mind_total (picked car_under : Z) :
  door picked -> door car_under ->
  exists options goat options' d,
    PyList.remove picked [0; 1; 2] = Ok options /\
    revealed_goat options car_under = Ok goat /\
    PyList.remove goat options = Ok options' /\
    PyList.getitem options' 0 = Ok d /\
    change_mind (picked, car_under) = Ok d /\
    door d.
Proof.
  intros Hp Hc.
  doors;
    repeat eexists;
    first [ reflexivity | unfold door; cbn; lia ].
Qed.

Lemma change_mind_total_witness :
  (door 2 /\ door 0) /\
  exists options goat options' d,
    PyList.remove 2 [0; 1; 2] = Ok options /\
    revealed_goat options 0 = Ok goat /\
    PyList.remove goat options = Ok options' /\
    PyList.getitem options' 0 = Ok d /\
    change_mind (2, 0) = Ok d /\
    door d.
Proof.
  assert (H2 : door 2) by (unfold door; lia).
  assert (H0 : door 0) by (unfold door; lia).
  split; [auto | exact (change_mind_total 2 0 H2 H0)].
Defined.

(** C10: when the car is behind the picked door [p], the presenter opens
    the lowest-numbered of the two other doors and [change_mind] returns
    the largest door of {0,1,2} without [p]. *)
Theorem change_mind_tie_break (p : Z) :
  door p ->
  exists goat d,
    host_reveals (p, p) = Ok goat /\
    change_mind (p, p) = Ok d /\
    door goat /\ goat <> p /\
    door d /\ d <> p /\
    (forall d', door d' -> d' <> p -> goat <= d' <= d).
Proof.
  intros Hp.
  exists (low p), (high p).
  rewrite (host_reveals_closed _ _ Hp), (change_mind_switched _ _ Hp).
  unfold switched.
  destruct (door_low p Hp) as [Hl Hlp], (door_high p Hp) as (Hh & Hhp & Hlt).
  destruct (Z.eqb_spec (low p) p) as [Heq | _]; [contradiction |].
  do 6 (split; [reflexivity || assumption |]).
  intros d' Hd' Hne. clear -Hp Hd' Hne.
  unfold low, high, door in *.
  destruct (Z.eqb_spec p 0), (Z.eqb_spec p 2); lia.
Qed.

Lemma change_mind_tie_break_witness :
  door 1 /\
  exists goat d,
    host_reveals (1, 1) = Ok goat /\
    change_mind (1, 1) = Ok d /\
    door goat /\ goat <> 1 /\
    door d /\ d <> 1 /\
    (forall d', door d' -> d' <> 1 -> goat <= d' <= d).
Proof.
  assert (H1 : door 1) by (unfold door; lia).
  split; [exact H1 | exact (change_mind_tie_break 1 H1)].
Defined.

(** ** Counting with [value_counts] *)

Lemma occurrences_cons b a s :
  occurrences b (a :: s) =
  if decide (a = b) then S (occurrences b s) else occurrences b s.
Proof.
  unfold occurrences. rewrite filter_cons.
  destruct (decide (a = b)); reflexivity.
Qed.

(** A label of [value_counts()] is present exactly when the value occurs,
    and then carries the number of occurrences. *)
Lemma value_counts_lookup s b :
  Series.value_counts s !! b =
  match occurrences b s with
  | O => None
  | S n => Some (S n)
  end.
Proof.
  induction s as [| a s IH]; [apply lookup_empty |].
  cbn [Series.value_counts foldr]. fold (Series.value_counts s).
  rewrite lookup_insert, occurrences_cons.
  destruct (decide (a = b)) as [-> | Hne]; [| exact IH].
  rewrite IH. destruct (occurrences b s); reflexivity.
Qed.

Lemma matches_nil_l b : matches [] b = O.
Proof. reflexivity. Qed.

Lemma matches_nil_r a : matches a [] = O.
Proof. destruct a; reflexivity. Qed.

Lemma matches_cons x a y b :
  matches (x :: a) (y :: b) =
  if decide (x = y) then S (matches a b) else matches a b.
Proof.
  unfold matches. cbn [zip_with]. rewrite filter_cons. cbn [fst snd].
  destruct (decide (x = y)); reflexivity.
Qed.

Lemma matches_le a b : (matches a b <= length a)%nat.
Proof.
  revert b. induction a as [| x a IH]; intros [| y b]; cbn [length];
    rewrite ?matches_nil_l, ?matches_nil_r; try lia.
  rewrite matches_cons. specialize (IH b).
  destruct (decide (x = y)); lia.
Qed.

(** The number of [True] entries of [a == b] is the number of matching
    positions. *)
Lemma occurrences_eqb a b :
  occurrences true (zip_with Z.eqb a b) = matches a b.
Proof.
  revert b. induction a as [| x a IH]; intros [| y b];
    rewrite ?matches_nil_l, ?matches_nil_r; try reflexivity.
  cbn [zip_with]. rewrite occurrences_cons, matches_cons, IH.
  destruct (Z.eqb_spec x y); repeat case_decide; congruence.
Qed.

(** [(a == b).value_counts()[True]] yields the number of matching
    positions when there is one, and raises [KeyError] when there is
    none. *)
Lemma num_times_we_got_the_car_spec a b :
  length a = length b ->
  num_times_we_got_the_car a b =
  match matches a b with
  | O => Raise KeyError
  | S n => Ok (S n)
  end.
Proof.
  intros Hlen. unfold num_times_we_got_the_car, Series.eq.
  destruct (decide (length a = length b)); [| contradiction].
  cbn [bind]. unfold Series.getitem.
  rewrite value_counts_lookup, occurrences_eqb.
  destruct (matches a b); reflexivity.
Qed.

Lemma num_times_we_got_the_car_length a b :
  length a <> length b -> num_times_we_got_the_car a b = Raise ValueError.
Proof.
  intros Hlen. unfold num_times_we_got_the_car, Series.eq.
  destruct (decide (length a = length b)); [contradiction | reflexivity].
Qed.

(** ** The two evaluations *)

Lemma approximate_P_staying_spec num_trials car_under picked :
  length car_under = length picked ->
  approximate_P_staying num_trials car_under picked =
  match matches car_under picked with
  | O => Raise KeyError
  | S n => Ok (Float64.true_divide (Z.of_nat (S n)) num_trials)
  end.
Proof.
  intros Hlen. unfold approximate_P_staying.
  rewrite (num_times_we_got_the_car_spec _ _ Hlen).
  destruct (matches car_under picked); reflexivity.
Qed.

(** Applying [change_mind] to every row succeeds when the picks are
    doors, and yields the closed form row by row. *)
Lemma df_changed_mind_spec car_under picked :
  Forall door picked ->
  df_changed_mind car_under picked = Ok (zip_with switched picked car_under).
Proof.
  unfold df_changed_mind. intros Hp. revert car_under.
  induction Hp as [| p picked Hd _ IH]; intros [| c car_under];
    try reflexivity.
  cbn [zip_with mapM].
  rewrite (change_mind_switched _ _ Hd). cbn [bind].
  rewrite IH. reflexivity.
Qed.

Lemma approximate_P_switching_spec num_trials car_under picked :
  Forall door picked ->
  length car_under = length picked ->
  approximate_P_switching num_trials car_under picked =
  match matches car_under (zip_with switched picked car_under) with
  | O => Raise KeyError
  | S n => Ok (Float64.true_divide (Z.of_nat (S n)) num_trials)
  end.
Proof.
  intros Hp Hlen. unfold approximate_P_switching.
  rewrite (df_changed_mind_spec _ _ Hp). cbn [bind].
  rewrite num_times_we_got_the_car_spec
    by (rewrite length_zip_with; lia).
  destruct (matches _ _); reflexivity.
Qed.

(** Every trial is won by exactly one of the two strategies. *)
Lemma matches_stay_switch car_under picked :
  Forall door car_under -> Forall door picked ->
  length car_under = length picked ->
  (matches car_under picked
   + matches car_under (zip_with switched picked car_under))%nat
  = length car_under.
Proof.
  intros Hc. revert picked.
  induction Hc as [| c car_under Hd _ IH]; intros picked Hp Hlen.
  - reflexivity.
  - destruct Hp as [| p picked Hdp Hp]; [discriminate |].
    cbn [zip_with length]. rewrite !matches_cons.
    injection Hlen as Hlen. specialize (IH picked Hp Hlen).
    destruct (decide (c = p)) as [-> | Hne].
    + pose proof (switched_not_picked p p Hdp).
      destruct (decide (p = switched p p)); [congruence | lia].
    + rewrite (switched_car p c Hdp Hd Hne).
      destruct (decide (c = c)); [lia | congruence].
Qed.

Lemma matches_replicate_ne n x y :
  x <> y -> matches (replicate n x) (replicate n y) = O.
Proof.
  intros Hne. induction n as [| n IH]; [reflexivity |].
  cbn [replicate]. rewrite matches_cons.
  destruct (decide (x = y)); [contradiction | exact IH].
Qed.

(** With the notebook's own trial count: ten thousand trials in which the
    pick never is the car's door make the stay cell raise. *)
Lemma staying_10000_no_match :
  approximate_P_staying 10000
    (replicate (Z.to_nat 10000) 0) (replicate (Z.to_nat 10000) 1)
  = Raise KeyError.
Proof.
  rewrite approximate_P_staying_spec
    by (rewrite !length_replicate; reflexivity).
  rewrite matches_replicate_ne by lia. reflexivity.
Qed.

(** Likewise for the switch cell when every pick is the car's door. *)
Lemma switching_10000_no_match :
  approximate_P_switching 10000
    (replicate (Z.to_nat 10000) 0) (replicate (Z.to_nat 10000) 0)
  = Raise KeyError.
Proof.
  rewrite approximate_P_switching_spec.
  - rewrite zip_with_replicate.
    change (switched 0 0) with 2.
    rewrite matches_replicate_ne by lia. reflexivity.
  - apply Forall_replicate. unfold door. lia.
  - reflexivity.
Qed.

(** C4: the stay evaluation at one trial whose pick misses the car: no
    position matches, and the cell raises [KeyError] where the quotient
    0 / 1 is expected. *)
Theorem staying_no_match_raises :
  trials 1 [0] [1] /\
  matches [0] [1] = O /\
  approximate_P_staying 1 [0] [1] = Raise KeyError.
Proof.
  split; [| split; reflexivity].
  unfold trials, door. repeat split; try reflexivity.
  all: repeat constructor; lia.
Qed.

(** C5: the switch evaluation at one trial whose pick is the car's door:
    [change_mind] moves to door 2, no position matches, and the cell
    raises [KeyError] where the quotient 0 / 1 is expected. *)
Theorem switching_no_match_raises :
  trials 1 [0] [0] /\
  df_changed_mind [0] [0] = Ok [2] /\
  matches [0] [2] = O /\
  approximate_P_switching 1 [0] [0] = Raise KeyError.
Proof.
  split; [| repeat split; reflexivity].
  unfold trials, door. repeat split; try reflexivity.
  all: repeat constructor; lia.
Qed.

(** The notebook returns both values exactly when each strategy wins at
    least one trial. *)
Lemma notebook_spec num_trials car_under picked :
  trials num_trials car_under picked ->
  notebook num_trials car_under picked =
  match matches car_under picked,
        matches car_under (zip_with switched picked car_under) with
  | S n, S m =>
      Ok (Float64.true_divide (Z.of_nat (S n)) num_trials,
          Float64.true_divide (Z.of_nat (S m)) num_trials)
  | _, _ => Raise KeyError
  end.
Proof.
  intros (Hc & Hp & Hdc & Hdp).
  assert (Hlen : length car_under = length picked) by lia.
  unfold notebook.
  rewrite (approximate_P_staying_spec _ _ _ Hlen).
  rewrite (approximate_P_switching_spec _ _ _ Hdp Hlen).
  destruct (matches car_under picked); [reflexivity |].
  destruct (matches car_under _); reflexivity.
Qed.

Lemma trials_single c p : door c -> door p -> trials 1 [c] [p].
Proof.
  intros Hc Hp. unfold trials. cbn [length].
  split; [reflexivity |]. split; [reflexivity |].
  split; (constructor; [assumption | constructor]).
Qed.

(** C6: with a single trial over {0,1,2} the notebook never runs to
    completion: one of its two cells raises [KeyError], whatever the pick
    and the car's door are. *)
Theorem notebook_single_trial_raises (c p : Z) :
  door c -> door p ->
  trials 1 [c] [p] /\ notebook 1 [c] [p] = Raise KeyError.
Proof.
  intros Hc Hp. pose proof (trials_single c p Hc Hp) as Ht.
  split; [exact Ht |].
  rewrite (notebook_spec _ _ _ Ht).
  pose proof (matches_stay_switch [c] [p]) as Hsum.
  cbn [length] in Hsum.
  destruct (matches [c] [p]) as [| n]; [reflexivity |].
  destruct (matches [c] _) as [| m]; [reflexivity |].
  exfalso.
  assert (S n + S m = 1)%nat
    by (apply Hsum; [| | reflexivity];
        (constructor; [assumption | constructor])).
  lia.
Qed.

Lemma notebook_single_trial_raises_witness :
  (door 2 /\ door 1) /\
  trials 1 [2] [1] /\ notebook 1 [2] [1] = Raise KeyError.
Proof.
  assert (H2 : door 2) by (unfold door; lia).
  assert (H1 : door 1) by (unfold door; lia).
  split; [auto | exact (notebook_single_trial_raises 2 1 H2 H1)].
Defined.

(** C7: three trials, the car behind doors 0, 1, 2 and the pick always
    door 0.  Only the first trial matches for the stay evaluation, which
    returns the float64 quotient 1 / 3; the switched picks are 2, 1, 2,
    none of them 0, two of them the car's door, and the switch evaluation
    returns the float64 quotient 2 / 3. *)
Theorem three_trials_scenario :
  trials 3 [0; 1; 2] [0; 0; 0] /\
  Series.eq [0; 1; 2] [0; 0; 0] = Ok [true; false; false] /\
  num_times_we_got_the_car [0; 1; 2] [0; 0; 0] = Ok 1%nat /\
  approximate_P_staying 3 [0; 1; 2] [0; 0; 0]
    = Ok (Float64.true_divide 1 3) /\
  df_changed_mind [0; 1; 2] [0; 0; 0] = Ok [2; 1; 2] /\
  Forall (fun d => d <> 0) [2; 1; 2] /\
  Series.eq [0; 1; 2] [2; 1; 2] = Ok [false; true; true] /\
  num_times_we_got_the_car [0; 1; 2] [2; 1; 2] = Ok 2%nat /\
  approximate_P_switching 3 [0; 1; 2] [0; 0; 0]
    = Ok (Float64.true_divide 2 3) /\
  Float64.true_divide 1 3 = S754_finite false 6004799503160661 (-54) /\
  Float64.true_divide 2 3 = S754_finite false 6004799503160661 (-53).
Proof.
  split.
  { unfold trials, door. repeat split; try reflexivity.
    all: repeat constructor; lia. }
  repeat split; try (vm_compute; reflexivity).
  repeat constructor; lia.
Qed.

(** C8: with a single trial over {0,1,2} exactly one of the two
    evaluations returns, and it returns 1.0; the other one, whose number of
    matches is zero, raises [KeyError] and produces no 0.0. *)
Theorem single_trial_outcomes (c p : Z) :
  door c -> door p ->
  (c = p /\
   approximate_P_staying 1 [c] [p] = Ok Float64.one /\
   approximate_P_switching 1 [c] [p] = Raise KeyError) \/
  (c <> p /\
   approximate_P_staying 1 [c] [p] = Raise KeyError /\
   approximate_P_switching 1 [c] [p] = Ok Float64.one).
Proof.
  intros Hc Hp.
  destruct (decide (c = p)) as [-> | Hne]; [left | right];
    (split; [assumption || reflexivity |]);
    doors; try congruence; split; vm_compute; reflexivity.
Qed.

Lemma single_trial_outcomes_witness :
  (door 0 /\ door 1) /\
  ((0 = 1 /\
    approximate_P_staying 1 [0] [1] = Ok Float64.one /\
    approximate_P_switching 1 [0] [1] = Raise KeyError) \/
   (0 <> 1 /\
    approximate_P_staying 1 [0] [1] = Raise KeyError /\
    approximate_P_switching 1 [0] [1] = Ok Float64.one)).
Proof.
  assert (H0 : door 0) by (unfold door; lia).
  assert (H1 : door 1) by (unfold door; lia).
  split; [auto | exact (single_trial_outcomes 0 1 H0 H1)].
Defined.

(** The exact fractions behind the two reported values are complementary
    as soon as the two counts add up to the number of trials. *)
Lemma ratio_complement (a b n : Z) :
  a + b = n -> 0 < n ->
  (inject_Z a / inject_Z n == 1 - inject_Z b / inject_Z n)%Q.
Proof.
  intros Hsum Hn. subst n.
  rewrite inject_Z_plus. field.
  rewrite <- inject_Z_plus. intros H.
  unfold Qeq in H. cbn [inject_Z Qnum Qden] in H. lia.
Qed.

(** C9, as stated, fails: for the car behind doors 0, 1, 2 and the pick
    always door 0 both evaluations return, and the float64 values they
    return do not satisfy [p_stay == 1 - p_switch], neither with the
    float64 subtraction nor as the rational numbers they stand for. *)
Lemma stay_switch_not_exact :
  trials 3 [0; 1; 2] [0; 0; 0] /\
  exists p_stay p_switch,
    approximate_P_staying 3 [0; 1; 2] [0; 0; 0] = Ok p_stay /\
    approximate_P_switching 3 [0; 1; 2] [0; 0; 0] = Ok p_switch /\
    p_stay = S754_finite false 6004799503160661 (-54) /\
    Float64.sub (Float64.of_Z 1) p_switch
      = S754_finite false 6004799503160662 (-54) /\
    complementary p_stay p_switch = false /\
    ~ (Float64.to_Q p_stay == 1 - Float64.to_Q p_switch)%Q.
Proof.
  split.
  { unfold trials, door. repeat split; try reflexivity.
    all: repeat constructor; lia. }
  exists (Float64.true_divide 1 3), (Float64.true_divide 2 3).
  do 5 (split; [vm_compute; reflexivity |]).
  vm_compute. discriminate.
Qed.

(** C9, amended: over the same car and pick sequences of doors, the
    number of stay matches plus the number of switch matches is the number
    of trials, so the exact fractions count / N are complementary; whenever
    both evaluations return, their values are the float64 quotients of
    these two counts by N. *)
Theorem stay_switch_counts (num_trials : Z) (car_under picked : list Z) :
  trials num_trials car_under picked -> 0 < num_trials ->
  exists changed,
    df_changed_mind car_under picked = Ok changed /\
    Z.of_nat (matches car_under picked)
      + Z.of_nat (matches car_under changed) = num_trials /\
    (inject_Z (Z.of_nat (matches car_under picked)) / inject_Z num_trials
     == 1 - inject_Z (Z.of_nat (matches car_under changed))
            / inject_Z num_trials)%Q /\
    (forall p_stay p_switch,
        approximate_P_staying num_trials car_under picked = Ok p_stay ->
        approximate_P_switching num_trials car_under picked = Ok p_switch ->
        p_stay = Float64.true_divide
                   (Z.of_nat (matches car_under picked)) num_trials /\
        p_switch = Float64.true_divide
                     (Z.of_nat (matches car_under changed)) num_trials).
Proof.
  intros Ht Hn. pose proof Ht as (Hc & Hp & Hdc & Hdp).
  assert (Hlen : length car_under = length picked) by lia.
  exists (zip_with switched picked car_under).
  pose proof (matches_stay_switch _ _ Hdc Hdp Hlen) as Hsum.
  assert (HsumZ : Z.of_nat (matches car_under picked)
                  + Z.of_nat (matches car_under
                                (zip_with switched picked car_under))
                  = num_trials) by lia.
  split; [apply df_changed_mind_spec; assumption |].
  split; [exact HsumZ |].
  split; [apply ratio_complement; assumption |].
  intros p_stay p_switch.
  rewrite (approximate_P_staying_spec _ _ _ Hlen).
  rewrite (approximate_P_switching_spec _ _ _ Hdp Hlen).
  destruct (matches car_under picked); [discriminate |].
  destruct (matches car_under _); [discriminate |].
  intros [= <-] [= <-]. split; reflexivity.
Qed.

Lemma stay_switch_counts_witness :
  (trials 3 [0; 1; 2] [0; 0; 0] /\ 0 < 3) /\
  exists changed,
    df_changed_mind [0; 1; 2] [0; 0; 0] = Ok changed /\
    Z.of_nat (matches [0; 1; 2] [0; 0; 0])
      + Z.of_nat (matches [0; 1; 2] changed) = 3 /\
    (inject_Z (Z.of_nat (matches [0; 1; 2]%Z [0; 0; 0]%Z)) / inject_Z 3%Z
     == 1 - inject_Z (Z.of_nat (matches [0; 1; 2]%Z changed))
            / inject_Z 3%Z)%Q /\
    (forall p_stay p_switch,
        approximate_P_staying 3 [0; 1; 2] [0; 0; 0] = Ok p_stay ->
        approximate_P_switching 3 [0; 1; 2] [0; 0; 0] = Ok p_switch ->
        p_stay = Float64.true_divide
                   (Z.of_nat (matches [0; 1; 2] [0; 0; 0])) 3 /\
        p_switch = Float64.true_divide
                     (Z.of_nat (matches [0; 1; 2] changed)) 3).
Proof.
  assert (Ht : trials 3 [0; 1; 2] [0; 0; 0]).
  { unfold trials, door. repeat split; try reflexivity.
    all: repeat constructor; lia. }
  assert (Hn : 0 < 3) by lia.
  split; [auto | exact (stay_switch_counts 3 [0; 1; 2] [0; 0; 0] Ht Hn)].
Defined.

(** ** Further properties of the switch resolver *)

Lemma remove_not_door p :
  ~ door p -> PyList.remove p [0; 1; 2] = Raise ValueError.
Proof.
  intros Hp. unfold door in Hp. cbn [PyList.remove].
  destruct (Z.eqb_spec 0 p); [lia |].
  destruct (Z.eqb_spec 1 p); [lia |].
  destruct (Z.eqb_spec 2 p); [lia |].
  reflexivity.
Qed.

Lemma change_mind_not_door p c :
  ~ door p -> change_mind (p, c) = Raise ValueError.
Proof.
  intros Hp. unfold change_mind. cbn [fst snd].
  rewrite (remove_not_door _ Hp). reflexivity.
Qed.

Lemma door_or_not p : door p \/ ~ door p.
Proof. unfold door. lia. Qed.

(** X1: [change_mind] raises exactly when the pick is not one of the doors
    0, 1, 2, whatever the car's door is, and the exception is then
    [ValueError] (the first [options.remove]); no other exception can leave
    it. *)
Theorem change_mind_raises_iff (picked car_under : Z) :
  (change_mind (picked, car_under) = Raise ValueError <-> ~ door picked) /\
  (forall e, change_mind (picked, car_under) = Raise e -> e = ValueError).
Proof.
  destruct (door_or_not picked) as [Hp | Hp].
  - rewrite (change_mind_switched _ _ Hp).
    split; [split; [discriminate | contradiction] | discriminate].
  - rewrite (change_mind_not_door _ _ Hp).
    split; [split; [intros _; exact Hp | reflexivity] |].
    intros e [= <-]. reflexivity.
Qed.

(** X2: for a pick in {0,1,2} [change_mind] returns for every integer
    [car_under], also one that is no door: the result is a door other than
    the pick, and when [car_under] is the pick or no door at all it is the
    highest door other than the pick. *)
Theorem change_mind_any_car (picked car_under : Z) :
  door picked ->
  exists d,
    change_mind (picked, car_under) = Ok d /\
    door d /\ d <> picked /\
    (car_under = picked \/ ~ door car_under ->
     forall d', door d' -> d' <> picked -> d' <= d).
Proof.
  intros Hp. exists (switched picked car_under).
  split; [apply change_mind_switched; assumption |].
  split; [apply switched_door; assumption |].
  split; [apply switched_not_picked; assumption |].
  intros Hc d' Hd' Hne. unfold switched.
  destruct (door_low picked Hp) as [Hl Hlp].
  destruct (Z.eqb_spec (low picked) car_under) as [Heq | _].
  - exfalso. destruct Hc as [-> | Hc]; [contradiction | ].
    apply Hc. rewrite <- Heq. exact Hl.
  - clear -Hp Hd' Hne. unfold high, door in *.
    destruct (Z.eqb_spec picked 2); lia.
Qed.

Lemma change_mind_any_car_witness :
  door 0 /\
  exists d,
    change_mind (0, 7) = Ok d /\
    door d /\ d <> 0 /\
    (7 = 0 \/ ~ door 7 -> forall d', door d' -> d' <> 0 -> d' <= d).
Proof.
  assert (H0 : door 0) by (unfold door; lia).
  split; [exact H0 | exact (change_mind_any_car 0 7 H0)].
Defined.

(** X3: for a pick in {0,1,2} the door the presenter opens (the value of
    the second [options.remove]) is a door that is neither the pick nor the
    car's door. *)
Theorem host_never_opens_car (picked car_under : Z) :
  door picked ->
  exists goat,
    host_reveals (picked, car_under) = Ok goat /\
    door goat /\ goat <> picked /\ goat <> car_under.
Proof.
  intros Hp.
  destruct (door_low picked Hp) as [Hl Hlp].
  destruct (door_high picked Hp) as (Hh & Hhp & Hlt).
  rewrite (host_reveals_closed _ _ Hp).
  destruct (Z.eqb_spec (low picked) car_under) as [Heq | Hne].
  - exists (high picked).
    split; [reflexivity |]. split; [assumption |]. split; lia.
  - exists (low picked).
    split; [reflexivity |]. split; [assumption |]. split; lia.
Qed.

Lemma host_never_opens_car_witness :
  door 1 /\
  exists goat,
    host_reveals (1, 0) = Ok goat /\
    door goat /\ goat <> 1 /\ goat <> 0.
Proof.
  assert (H1 : door 1) by (unfold door; lia).
  split; [exact H1 | exact (host_never_opens_car 1 0 H1)].
Defined.

(** ** Further properties of the two evaluations *)

Lemma matches_zero a b :
  length a = length b ->
  matches a b = O <-> Forall2 (fun x y => x <> y) a b.
Proof.
  revert b. induction a as [| x a IH]; intros [| y b] Hlen;
    try discriminate.
  - split; [constructor | reflexivity].
  - injection Hlen as Hlen. rewrite matches_cons, Forall2_cons.
    specialize (IH b Hlen).
    destruct (decide (x = y)) as [-> | Hne].
    + split; [discriminate | intros [Hxy _]; congruence].
    + rewrite IH. split; [intros H; split; assumption | intros [_ H]; exact H].
Qed.

Lemma matches_all a b :
  length a = length b -> matches a b = length a <-> a = b.
Proof.
  revert b. induction a as [| x a IH]; intros [| y b] Hlen;
    try discriminate.
  - split; reflexivity.
  - injection Hlen as Hlen. rewrite matches_cons. cbn [length].
    specialize (IH b Hlen). pose proof (matches_le a b) as Hle.
    destruct (decide (x = y)) as [-> | Hne].
    + split.
      * intros [= H]. apply IH in H. congruence.
      * intros [= H]. f_equal. apply IH. exact H.
    + split; [lia | congruence].
Qed.

(** X4: on two columns of the same length the stay cell raises [KeyError]
    exactly when the pick differs from the car's door in every trial (in
    particular when there is no trial at all), and it raises nothing else. *)
Theorem staying_raises_iff (num_trials : Z) (car_under picked : list Z) :
  length car_under = length picked ->
  (approximate_P_staying num_trials car_under picked = Raise KeyError
   <-> Forall2 (fun c p => c <> p) car_under picked) /\
  (forall e,
      approximate_P_staying num_trials car_under picked = Raise e ->
      e = KeyError).
Proof.
  intros Hlen.
  rewrite (approximate_P_staying_spec _ _ _ Hlen).
  rewrite <- (matches_zero _ _ Hlen).
  destruct (matches car_under picked).
  - split; [split; reflexivity |]. intros e [= <-]. reflexivity.
  - split; [split; discriminate | discriminate].
Qed.

Lemma staying_raises_iff_witness :
  length [0; 2] = length [1; 0] /\
  (approximate_P_staying 2 [0; 2] [1; 0] = Raise KeyError
   <-> Forall2 (fun c p => c <> p) [0; 2] [1; 0]) /\
  (forall e, approximate_P_staying 2 [0; 2] [1; 0] = Raise e -> e = KeyError).
Proof.
  assert (Hlen : length [0; 2] = length [1; 0]) by reflexivity.
  split; [exact Hlen | exact (staying_raises_iff 2 [0; 2] [1; 0] Hlen)].
Defined.

(** X5: whenever the stay cell returns on two columns of [num_trials]
    entries, at least one and at most [num_trials] trials match, so
    [num_trials] is positive (the division never sees a zero divisor) and
    the value is the float64 quotient of that number of matches by
    [num_trials]. *)
Theorem staying_returns_bounds
    (num_trials : Z) (car_under picked : list Z) (p_stay : spec_float) :
  Z.of_nat (length car_under) = num_trials ->
  length picked = length car_under ->
  approximate_P_staying num_trials car_under picked = Ok p_stay ->
  0 < num_trials /\
  exists n : nat,
    n = matches car_under picked /\
    1 <= Z.of_nat n <= num_trials /\
    p_stay = Float64.true_divide (Z.of_nat n) num_trials.
Proof.
  intros Hn Hlen.
  rewrite approximate_P_staying_spec by (symmetry; exact Hlen).
  pose proof (matches_le car_under picked) as Hle.
  destruct (matches car_under picked) as [| n]; [discriminate |].
  intros [= <-]. split; [lia |].
  exists (S n). split; [reflexivity |]. split; [lia | reflexivity].
Qed.

Lemma staying_returns_bounds_witness :
  (Z.of_nat (length [0; 1; 2]) = 3 /\
   length [0; 0; 0] = length [0; 1; 2] /\
   approximate_P_staying 3 [0; 1; 2] [0; 0; 0]
     = Ok (Float64.true_divide 1 3)) /\
  0 < 3 /\
  exists n : nat,
    n = matches [0; 1; 2] [0; 0; 0] /\
    1 <= Z.of_nat n <= 3 /\
    Float64.true_divide 1 3 = Float64.true_divide (Z.of_nat n) 3.
Proof.
  assert (Hn : Z.of_nat (length [0; 1; 2]) = 3) by reflexivity.
  assert (Hlen : length [0; 0; 0] = length [0; 1; 2]) by reflexivity.
  assert (Hr : approximate_P_staying 3 [0; 1; 2] [0; 0; 0]
               = Ok (Float64.true_divide 1 3)) by (vm_compute; reflexivity).
  split; [auto |].
  exact (staying_returns_bounds 3 [0; 1; 2] [0; 0; 0] _ Hn Hlen Hr).
Defined.

(** A pick outside {0,1,2} anywhere in the column stops
    [df_picked.apply(change_mind, axis=1)]. *)
Lemma df_changed_mind_not_doors car_under picked :
  length car_under = length picked ->
  Exists (fun p => ~ door p) picked ->
  df_changed_mind car_under picked = Raise ValueError.
Proof.
  unfold df_changed_mind. revert car_under.
  induction picked as [| p picked IH]; intros [| c car_under] Hlen Hex;
    try discriminate.
  - inversion Hex.
  - injection Hlen as Hlen. cbn [zip_with mapM].
    destruct (door_or_not p) as [Hp | Hp].
    + rewrite (change_mind_switched _ _ Hp). cbn [bind].
      apply Exists_cons in Hex as [Hex | Hex]; [contradiction |].
      rewrite (IH car_under Hlen Hex). reflexivity.
    + rewrite (change_mind_not_door _ _ Hp). reflexivity.
Qed.

Lemma all_doors_or_not picked :
  Forall door picked \/ Exists (fun p => ~ door p) picked.
Proof.
  induction picked as [| p picked [IH | IH]].
  - left. constructor.
  - destruct (door_or_not p) as [Hp | Hp].
    + left. constructor; assumption.
    + right. apply Exists_cons. left. exact Hp.
  - right. apply Exists_cons. right. exact IH.
Qed.

Lemma switched_column car_under picked :
  length car_under = length picked ->
  Forall door picked ->
  length (zip_with switched picked car_under) = length picked /\
  Forall door (zip_with switched picked car_under) /\
  Forall2 (fun d p => d <> p) (zip_with switched picked car_under) picked.
Proof.
  intros Hlen Hp. revert car_under Hlen.
  induction Hp as [| p picked Hd _ IH]; intros [| c car_under] Hlen;
    try discriminate.
  - repeat split; constructor.
  - injection Hlen as Hlen. destruct (IH car_under Hlen) as (Hl & Hf & Hne).
    cbn [zip_with length]. split; [congruence |]. split.
    + constructor; [apply switched_door; assumption | exact Hf].
    + constructor; [apply switched_not_picked; assumption | exact Hne].
Qed.

(** X6: on a column of picks that are doors, as long as the car column,
    [df_picked.apply(change_mind, axis=1)] returns a column of the same
    length, made of doors, that differs from the pick in every row. *)
Theorem df_changed_mind_column (car_under picked : list Z) :
  length car_under = length picked ->
  Forall door picked ->
  exists changed,
    df_changed_mind car_under picked = Ok changed /\
    length changed = length picked /\
    Forall door changed /\
    Forall2 (fun d p => d <> p) changed picked.
Proof.
  intros Hlen Hp. exists (zip_with switched picked car_under).
  split; [apply df_changed_mind_spec; exact Hp |].
  apply switched_column; assumption.
Qed.

Lemma df_changed_mind_column_witness :
  (length [1; 1; 0] = length [0; 1; 2] /\ Forall door [0; 1; 2]) /\
  exists changed,
    df_changed_mind [1; 1; 0] [0; 1; 2] = Ok changed /\
    length changed = length [0; 1; 2] /\
    Forall door changed /\
    Forall2 (fun d p => d <> p) changed [0; 1; 2].
Proof.
  assert (Hlen : length [1; 1; 0] = length [0; 1; 2]) by reflexivity.
  assert (Hp : Forall door [0; 1; 2])
    by (repeat (constructor; [unfold door; lia |]); constructor).
  split; [auto | exact (df_changed_mind_column [1; 1; 0] [0; 1; 2] Hlen Hp)].
Defined.

(** X7: a single pick outside {0,1,2}, in any row, makes the row-wise
    application of [change_mind] raise [ValueError], and with it the whole
    switch cell, whatever the other rows hold. *)
Theorem switching_pick_out_of_range
    (num_trials : Z) (car_under picked : list Z) :
  length car_under = length picked ->
  Exists (fun p => ~ door p) picked ->
  df_changed_mind car_under picked = Raise ValueError /\
  approximate_P_switching num_trials car_under picked = Raise ValueError.
Proof.
  intros Hlen Hex. unfold approximate_P_switching.
  rewrite (df_changed_mind_not_doors _ _ Hlen Hex).
  split; reflexivity.
Qed.

Lemma switching_pick_out_of_range_witness :
  (length [0; 1; 2] = length [0; 5; 1] /\
   Exists (fun p => ~ door p) [0; 5; 1]) /\
  df_changed_mind [0; 1; 2] [0; 5; 1] = Raise ValueError /\
  approximate_P_switching 3 [0; 1; 2] [0; 5; 1] = Raise ValueError.
Proof.
  assert (Hlen : length [0; 1; 2] = length [0; 5; 1]) by reflexivity.
  assert (Hex : Exists (fun p => ~ door p) [0; 5; 1])
    by (apply Exists_cons_tl, Exists_cons_hd; unfold door; lia).
  split; [auto |].
  exact (switching_pick_out_of_range 3 [0; 1; 2] [0; 5; 1] Hlen Hex).
Defined.



(** X9: whenever the switch cell returns on two columns of [num_trials]
    entries, every pick is one of the doors 0, 1, 2, at least one and at
    most [num_trials] switched picks are the car's door, [num_trials] is
    positive, and the value is the float64 quotient of that number by
    [num_trials]. *)
Theorem switching_returns_bounds
    (num_trials : Z) (car_under picked : list Z) (p_switch : spec_float) :
  Z.of_nat (length car_under) = num_trials ->
  length picked = length car_under ->
  approximate_P_switching num_trials car_under picked = Ok p_switch ->
  Forall door picked /\
  0 < num_trials /\
  exists (changed : list Z) (n : nat),
    df_changed_mind car_under picked = Ok changed /\
    n = matches car_under changed /\
    1 <= Z.of_nat n <= num_trials /\
    p_switch = Float64.true_divide (Z.of_nat n) num_trials.
Proof.
  intros Hn Hlen Hr. symmetry in Hlen.
  destruct (all_doors_or_not picked) as [Hp | Hex].
  - rewrite (approximate_P_switching_spec _ _ _ Hp Hlen) in Hr.
    pose proof (matches_le car_under (zip_with switched picked car_under))
      as Hle.
    destruct (matches car_under (zip_with switched picked car_under))
      as [| n] eqn:Hm; [discriminate |].
    injection Hr as <-.
    split; [exact Hp |]. split; [lia |].
    exists (zip_with switched picked car_under), (S n).
    split; [apply df_changed_mind_spec; exact Hp |].
    split; [symmetry; exact Hm |]. split; [lia | reflexivity].
  - unfold approximate_P_switching in Hr.
    rewrite (df_changed_mind_not_doors _ _ Hlen Hex) in Hr. discriminate.
Qed.

Lemma switching_returns_bounds_witness :
  (Z.of_nat (length [0; 1; 2]) = 3 /\
   length [0; 0; 0] = length [0; 1; 2] /\
   approximate_P_switching 3 [0; 1; 2] [0; 0; 0]
     = Ok (Float64.true_divide 2 3)) /\
  Forall door [0; 0; 0] /\
  0 < 3 /\
  exists (changed : list Z) (n : nat),
    df_changed_mind [0; 1; 2] [0; 0; 0] = Ok changed /\
    n = matches [0; 1; 2] changed /\
    1 <= Z.of_nat n <= 3 /\
    Float64.true_divide 2 3 = Float64.true_divide (Z.of_nat n) 3.
Proof.
  assert (Hn : Z.of_nat (length [0; 1; 2]) = 3) by reflexivity.
  assert (Hlen : length [0; 0; 0] = length [0; 1; 2]) by reflexivity.
  assert (Hr : approximate_P_switching 3 [0; 1; 2] [0; 0; 0]
               = Ok (Float64.true_divide 2 3)) by (vm_compute; reflexivity).
  split; [auto |].
  exact (switching_returns_bounds 3 [0; 1; 2] [0; 0; 0] _ Hn Hlen Hr).
Defined.

(** ** The order of the trials *)

Lemma matches_rows (f : row -> Z) (rows : list row) :
  matches (rows.*2) (f <$> rows)
  = length (filter (fun r : row => r.2 = f r) rows).
Proof.
  induction rows as [| r rows IH]; [reflexivity |].
  rewrite !fmap_cons, matches_cons, filter_cons, IH.
  destruct (decide (r.2 = f r)); reflexivity.
Qed.

Lemma switched_rows (rows : list row) :
  zip_with switched (rows.*1) (rows.*2)
  = (fun r : row => switched r.1 r.2) <$> rows.
Proof.
  induction rows as [| r rows IH]; [reflexivity |].
  rewrite !fmap_cons. cbn [zip_with]. rewrite IH. reflexivity.
Qed.

Lemma staying_rows num_trials (rows : list row) :
  approximate_P_staying num_trials (rows.*2) (rows.*1) =
  match length (filter (fun r : row => r.2 = r.1) rows) with
  | O => Raise KeyError
  | S n => Ok (Float64.true_divide (Z.of_nat (S n)) num_trials)
  end.
Proof.
  rewrite approximate_P_staying_spec by (rewrite !length_fmap; reflexivity).
  rewrite (matches_rows fst). reflexivity.
Qed.

Lemma switching_rows num_trials (rows : list row) :
  Forall door (rows.*1) ->
  approximate_P_switching num_trials (rows.*2) (rows.*1) =
  match length (filter (fun r : row => r.2 = switched r.1 r.2) rows) with
  | O => Raise KeyError
  | S n => Ok (Float64.true_divide (Z.of_nat (S n)) num_trials)
  end.
Proof.
  intros Hp.
  rewrite approximate_P_switching_spec
    by (exact Hp || (rewrite !length_fmap; reflexivity)).
  rewrite switched_rows, matches_rows. reflexivity.
Qed.

(** X10: the two cells do not depend on the order of the trials: when
    the rows (pick, car) are rearranged, the stay cell and the switch cell
    each give the same outcome as before, be it a value or an exception. *)
Theorem evaluations_order_independent
    (num_trials : Z) (rows rows' : list row) :
  rows ≡ₚ rows' ->
  approximate_P_staying num_trials (rows.*2) (rows.*1)
  = approximate_P_staying num_trials (rows'.*2) (rows'.*1) /\
  approximate_P_switching num_trials (rows.*2) (rows.*1)
  = approximate_P_switching num_trials (rows'.*2) (rows'.*1).
Proof.
  intros Hperm. split.
  - rewrite !staying_rows.
    rewrite (Permutation_length
               (filter_Permutation (fun r : row => r.2 = r.1) _ _ Hperm)).
    reflexivity.
  - assert (Hp1 : rows.*1 ≡ₚ rows'.*1) by (rewrite Hperm; reflexivity).
    assert (Hlen : forall l : list row, length (l.*2) = length (l.*1))
      by (intros l; rewrite !length_fmap; reflexivity).
    destruct (all_doors_or_not (rows.*1)) as [Hd | Hex],
             (all_doors_or_not (rows'.*1)) as [Hd' | Hex'].
    + rewrite !switching_rows by assumption.
      rewrite (Permutation_length
                 (filter_Permutation
                    (fun r : row => r.2 = switched r.1 r.2) _ _ Hperm)).
      reflexivity.
    + exfalso. apply (Exists_not_Forall door) in Hex'. apply Hex'.
      rewrite <- Hp1. exact Hd.
    + exfalso. apply (Exists_not_Forall door) in Hex. apply Hex.
      rewrite Hp1. exact Hd'.
    + unfold approximate_P_switching.
      rewrite (df_changed_mind_not_doors _ _ (Hlen rows) Hex).
      rewrite (df_changed_mind_not_doors _ _ (Hlen rows') Hex').
      reflexivity.
Qed.

Lemma evaluations_order_independent_witness :
  [(0, 1); (2, 2)] ≡ₚ [(2, 2); (0, 1)] /\
  approximate_P_staying 2 ([(0, 1); (2, 2)].*2) ([(0, 1); (2, 2)].*1)
  = approximate_P_staying 2 ([(2, 2); (0, 1)].*2) ([(2, 2); (0, 1)].*1) /\
  approximate_P_switching 2 ([(0, 1); (2, 2)].*2) ([(0, 1); (2, 2)].*1)
  = approximate_P_switching 2 ([(2, 2); (0, 1)].*2) ([(2, 2); (0, 1)].*1).
Proof.
  assert (Hperm : [(0, 1); (2, 2)] ≡ₚ [(2, 2); (0, 1)]) by apply perm_swap.
  split; [exact Hperm |].
  exact (evaluations_order_independent 2 _ _ Hperm).
Defined.

(** ** Both cells *)

(** X11: on trial data over {0,1,2} the notebook's two cells raise
    [KeyError], and nothing else, exactly when one strategy wins no trial:
    when the pick differs from the car's door in every trial, or equals it
    in every trial; in every other case both values are returned. *)
Theorem notebook_raises_iff (num_trials : Z) (car_under picked : list Z) :
  trials num_trials car_under picked ->
  (notebook num_trials car_under picked = Raise KeyError
   <-> Forall2 (fun c p => c <> p) car_under picked \/ car_under = picked) /\
  (forall e, notebook num_trials car_under picked = Raise e -> e = KeyError) /\
  (~ Forall2 (fun c p => c <> p) car_under picked ->
   car_under <> picked ->
   exists p_stay p_switch,
     notebook num_trials car_under picked = Ok (p_stay, p_switch)).
Proof.
  intros Ht. pose proof Ht as (Hc & Hp & Hdc & Hdp).
  assert (Hlen : length car_under = length picked) by lia.
  rewrite (notebook_spec _ _ _ Ht).
  rewrite <- (matches_zero _ _ Hlen), <- (matches_all _ _ Hlen).
  pose proof (matches_stay_switch _ _ Hdc Hdp Hlen) as Hsum.
  destruct (matches car_under picked) as [| n].
  - split; [split; [intros _; left; reflexivity | reflexivity] |].
    split; [intros e [= <-]; reflexivity |].
    intros H0. contradiction H0. reflexivity.
  - destruct (matches car_under (zip_with switched picked car_under))
      as [| m].
    + split; [split; [intros _; right; lia | reflexivity] |].
      split; [intros e [= <-]; reflexivity |].
      intros _ Hall. contradiction Hall. lia.
    + split; [split; [discriminate | intros [H | H]; [discriminate | lia]] |].
      split; [discriminate |].
      intros _ _. eexists _, _. reflexivity.
Qed.

Lemma notebook_raises_iff_witness :
  trials 2 [1; 2] [1; 0] /\
  (notebook 2 [1; 2] [1; 0] = Raise KeyError
   <-> Forall2 (fun c p => c <> p) [1; 2] [1; 0] \/ [1; 2] = [1; 0]) /\
  (forall e, notebook 2 [1; 2] [1; 0] = Raise e -> e = KeyError) /\
  (~ Forall2 (fun c p => c <> p) [1; 2] [1; 0] ->
   [1; 2] <> [1; 0] ->
   exists p_stay p_switch, notebook 2 [1; 2] [1; 0] = Ok (p_stay, p_switch)).
Proof.
  assert (Ht : trials 2 [1; 2] [1; 0]).
  { unfold trials. split; [reflexivity |]. split; [reflexivity |].
    split; repeat (constructor; [unfold door; lia |]); constructor. }
  split; [exact Ht | exact (notebook_raises_iff 2 [1; 2] [1; 0] Ht)].
Defined.
